(** * cv.py: checking a package version before publishing

    A shallow embedding of [venv/Lib/site-packages/cv.py] and the properties
    of its checks.  The program is a straight line of three checks (version
    format, version type, uniqueness on the package index) driven by the
    parsed command line.

    Layout of the model:
    - [VersionType] is the [IntFlag] of the source, an integer combined with
      bitwise or;
    - Python exceptions are the constructors of [exn]; a computation is a
      function from the [World] to an [Outcome] and the new world, so that
      what a call leaves behind when it raises is kept;
    - the world holds what the program touches outside itself: the module
      cache [sys.modules], what the import system can find, the network
      reached by [urlopen], the log of requests sent and the standard output;
    - library functions the file only calls ([pkg_resources.safe_version],
      [ArgumentParser.parse_args], [json.loads]) are section variables, so
      that what is proved of the program holds whatever they compute;
      [SafeVersion] holds the normalisation rule itself, for the one
      property that is about the rule. *)

From Stdlib Require Import ZArith Bool Ascii String List Lia.
From stdpp Require Import base option gmap strings list fin_maps.
Import ListNotations.

Local Open Scope Z_scope.
Local Open Scope string_scope.

(** ** Substring test: Python's [sub in s] on [str] *)

Module Str.

(** [starts p s]: [s.startswith(p)]. *)
Fixpoint starts (p s : string) : bool :=
  match p, s with
  | EmptyString, _ => true
  | String _ _, EmptyString => false
  | String a p', String b s' => if Ascii.eqb a b then starts p' s' else false
  end.

(** [contains sub s]: the value of the Python expression [sub in s]. *)
Fixpoint contains (sub s : string) : bool :=
  match s with
  | EmptyString => starts sub EmptyString
  | String _ s' => starts sub s || contains sub s'
  end.

(** [occurs sub s]: [sub] is a contiguous part of [s]. *)
Definition occurs (sub s : string) : Prop :=
  exists pre post : string, s = String.append pre (String.append sub post).

End Str.

(** ** [class VersionType(IntFlag)] *)

Module VersionType.

(** Members of an [IntFlag] are integers; [|] is bitwise or. *)
Definition t : Type := Z.

Definition RELEASE : t := 0.
Definition ALPHA : t := 1.
Definition BETA : t := 2.
Definition RC : t := 4.
Definition DEV : t := 8.

(** [flag in vt] for flags: all bits of [flag] are set in [vt]. *)
Definition has (vt flag : t) : bool := Z.eqb (Z.land vt flag) flag.

(** [VersionType.parse]: four independent substring tests, each or-ing its
    flag into the result. *)
Definition parse (version : string) : t :=
  let version_type := RELEASE in
  let version_type :=
    if Str.contains "a" version then Z.lor version_type ALPHA else version_type in
  let version_type :=
    if Str.contains "b" version then Z.lor version_type BETA else version_type in
  let version_type :=
    if Str.contains "rc" version then Z.lor version_type RC else version_type in
  let version_type :=
    if Str.contains "dev" version then Z.lor version_type DEV else version_type in
  version_type.

End VersionType.

(** ** Python values the program handles *)

(** A module object, as far as the program looks at it: the file it was
    loaded from and its [__version__] attribute, when it defines one (taken to
    be a [str], as the checks expect). *)
Record pymodule := { __file__ : string; __version__ : option string }.

(** What a slot of [sys.modules] may hold: a module, or [None]. *)
Inductive pyobj :=
| PyNone
| PyModule (m : pymodule).

(** Truth value of an object in [if old_module:]; a module is always true. *)
Definition truthy (o : pyobj) : bool :=
  match o with
  | PyNone => false
  | PyModule _ => true
  end.

(** What [json.loads] returns; an object is a [dict] with [str] keys. *)
#[warnings="-register-all"]
Inductive json :=
| JNull
| JBool (b : bool)
| JNumber (n : Z)
| JString (s : string)
| JArray (l : list json)
| JObject (d : gmap string json).

(** ** Exceptions *)

Inductive exn :=
| InvalidRequirements (msg : string)
| VersionTypeMismatch (version : string) (actual expected : VersionType.t)
| InvalidVersionFormat (name version : string)
| VersionExists (name version : string)
| PypiError (name : string) (cause : exn)
| HTTPError (code : Z)
| URLError (reason : string)
| ValueError (msg : string)
| ModuleNotFoundError (name : string)
| AttributeError (attr : string)
| KeyError (key : string)
| TypeError (msg : string)
| JSONDecodeError (msg : string)
| SystemExit (code : Z).

(** [isinstance(e, HTTPError)], the test of [except HTTPError].  [HTTPError]
    derives from [URLError], not the other way round. *)
Definition is_HTTPError (e : exn) : bool :=
  match e with
  | HTTPError _ => true
  | _ => false
  end.

Inductive Outcome (A : Type) :=
| Ok (a : A)
| Raise (e : exn).
Arguments Ok {A} a.
Arguments Raise {A} e.

(** ** The world outside the program *)

Record World := {
  (** [sys.modules], the module cache *)
  sys_modules : gmap string pyobj;
  (** what the finders on [sys.path] load for a name that is not cached *)
  importable : string -> Outcome pymodule;
  (** what [urlopen] meets at a URL: a response body, or an exception *)
  network : string -> Outcome string;
  (** the URLs opened so far, oldest first *)
  requests : list string;
  (** the lines printed so far, oldest first *)
  stdout : list string
}.

Definition with_modules (m : gmap string pyobj) (w : World) : World :=
  {| sys_modules := m; importable := importable w; network := network w;
     requests := requests w; stdout := stdout w |}.

Definition with_network (i : string -> Outcome string) (w : World) : World :=
  {| sys_modules := sys_modules w; importable := importable w; network := i;
     requests := requests w; stdout := stdout w |}.

(** ** Computations: state and exceptions *)

Definition M (A : Type) : Type := World -> Outcome A * World.

Definition ret {A} (a : A) : M A := fun w => (Ok a, w).

Definition raise {A} (e : exn) : M A := fun w => (Raise e, w).

Definition bind {A B} (c : M A) (k : A -> M B) : M B :=
  fun w =>
    match c w with
    | (Ok a, w') => k a w'
    | (Raise e, w') => (Raise e, w')
    end.

(** A pure step that may raise. *)
Definition lift {A} (r : Outcome A) : M A := fun w => (r, w).

(** [try: c except E as e: h e], where [catches] is the [isinstance] test. *)
Definition try_except {A} (c : M A) (catches : exn -> bool) (h : exn -> M A) : M A :=
  fun w =>
    match c w with
    | (Ok a, w') => (Ok a, w')
    | (Raise e, w') => if catches e then h e w' else (Raise e, w')
    end.

Declare Scope py_scope.
Delimit Scope py_scope with py.
Notation "x <- c ;; k" := (bind c (fun x => k))
  (at level 100, c at next level, right associativity) : py_scope.
Notation "c ;; k" := (bind c (fun _ => k))
  (at level 100, right associativity) : py_scope.
Local Open Scope py_scope.

(** *** The effects the program uses *)

(** [urlopen(url).read()]: one request, logged, answered by the network. *)
Definition urlopen (url : string) : M string :=
  fun w =>
    (network w url,
     {| sys_modules := sys_modules w; importable := importable w; network := network w;
        requests := requests w ++ [url]; stdout := stdout w |}).

(** [print(line)] *)
Definition print (line : string) : M unit :=
  fun w =>
    (Ok tt,
     {| sys_modules := sys_modules w; importable := importable w; network := network w;
        requests := requests w; stdout := stdout w ++ [line] |}).

(** [sys.modules.pop(name, None)] *)
Definition sys_modules_pop (name : string) : M pyobj :=
  fun w =>
    match sys_modules w !! name with
    | Some o => (Ok o, with_modules (delete name (sys_modules w)) w)
    | None => (Ok PyNone, w)
    end.

(** [sys.modules[name] = o] *)
Definition sys_modules_setitem (name : string) (o : pyobj) : M unit :=
  fun w => (Ok tt, with_modules (<[name := o]> (sys_modules w)) w).

(** [importlib.invalidate_caches()]: the finders forget their directory
    listings; [importable] is what they find afterwards. *)
Definition invalidate_caches : M unit := ret tt.

(** [importlib.import_module(name)]: a cached module is returned as it is, a
    slot holding [None] blocks the import, and otherwise the module is
    loaded and cached under its name. *)
Definition import_module (name : string) : M pymodule :=
  fun w =>
    match sys_modules w !! name with
    | Some (PyModule m) => (Ok m, w)
    | Some PyNone => (Raise (ModuleNotFoundError name), w)
    | None =>
        match importable w name with
        | Ok m => (Ok m, with_modules (<[name := PyModule m]> (sys_modules w)) w)
        | Raise e => (Raise e, w)
        end
    end.

(** [module.__version__] *)
Definition getattr_version (m : pymodule) : Outcome string :=
  match __version__ m with
  | Some v => Ok v
  | None => Raise (AttributeError "__version__")
  end.

(** [data[key]] on a decoded JSON value. *)
Definition getitem (data : json) (key : string) : Outcome json :=
  match data with
  | JObject d =>
      match d !! key with
      | Some v => Ok v
      | None => Raise (KeyError key)
      end
  | JArray _ | JString _ => Raise (TypeError "indices must be integers")
  | _ => Raise (TypeError "object is not subscriptable")
  end.

(** [set(data.keys())] *)
Definition keys (data : json) : Outcome (gset string) :=
  match data with
  | JObject d => Ok (dom d)
  | _ => Raise (AttributeError "keys")
  end.

(** [any([...])] on booleans *)
Definition any (l : list bool) : bool := existsb (fun b => b) l.

(** ** The command line *)

(** The [argparse.Namespace] that [parser.parse_args] returns: one attribute
    per [add_argument] of the source. *)
Module Namespace.
Record t := {
  module : string;
  warehouse : string;
  alpha : bool;
  beta : bool;
  rc : bool;
  dev : bool;
  release : bool;
  dry : bool
}.
End Namespace.

(** [class Parameters(NamedTuple)] *)
Module Parameters.
Record t := {
  warehouse : string;
  package : string;
  version : string;
  expected_type : option VersionType.t;
  dry_run : bool
}.
End Parameters.

(** [_parse_version_type]: [Ok None] is the [return None] of no flag at all. *)
Definition _parse_version_type (parameters : Namespace.t)
  : Outcome (option VersionType.t) :=
  let release := Namespace.release parameters in
  let alpha := Namespace.alpha parameters in
  let beta := Namespace.beta parameters in
  let rc := Namespace.rc parameters in
  let dev := Namespace.dev parameters in
  if negb (any [release; alpha; beta; rc; dev]) then Ok None
  else
    let chosen : Outcome VersionType.t :=
      if release then
        if any [alpha; beta; rc; dev] then
          Raise (InvalidRequirements
                   "--release cannot be combined with --alpha, --beta, --rc, or --dev")
        else Ok VersionType.RELEASE
      else if alpha then
        if any [beta; rc] then
          Raise (InvalidRequirements "--alpha, --beta and --rc cannot be combined")
        else Ok VersionType.ALPHA
      else if beta then
        if any [alpha; rc] then
          Raise (InvalidRequirements "--alpha, --beta and --rc cannot be combined")
        else Ok VersionType.BETA
      else if rc then Ok VersionType.RC
      else Ok VersionType.RELEASE in
    match chosen with
    | Raise e => Raise e
    | Ok version_type =>
        let version_type :=
          if dev then Z.lor version_type VersionType.DEV else version_type in
        Ok (Some version_type)
    end.

(** [_resolve_module] *)
Definition _resolve_module (module_name : string) : M pymodule :=
  invalidate_caches ;;
  old_module <- sys_modules_pop module_name ;;
  module <- import_module module_name ;;
  (if truthy old_module then sys_modules_setitem module_name old_module
   else ret tt) ;;
  ret module.

(** [check_version_type] *)
Definition check_version_type (expected : VersionType.t) (version : string) : M unit :=
  let actual := VersionType.parse version in
  if negb (Z.eqb actual expected) then
    raise (VersionTypeMismatch version actual expected)
  else ret tt.

(** The line [main] prints at its end. *)
Definition ok_line (package version : string) : string :=
  "OK: " +:+ package +:+ " " +:+ version +:+ " is valid and not present on PyPI.".

(** How the interpreter ends after running the [__main__] block: 0 when it
    runs to its end, the code of a [SystemExit], 1 for any other exception. *)
Definition exit_status {A} (r : Outcome A) : Z :=
  match r with
  | Ok _ => 0
  | Raise (SystemExit code) => code
  | Raise _ => 1
  end.

Section Program.

(** Library functions the program calls and does not define.  [parse_args]
    is the [Namespace] that [parser.parse_args] returns or the exception it
    raises; what argparse itself writes before it raises (the help text of
    [-h] on standard output, a usage error on standard error) is not
    modelled, so what is said of the output is said of runs whose command
    line parsed. *)
Variable safe_version : string -> string.
Variable parse_args : list string -> Outcome Namespace.t.
Variable json_loads : string -> Outcome json.

(** [check_unique] *)
Definition check_unique (name version warehouse : string) : M unit :=
  response <- try_except (urlopen (warehouse +:+ "/" +:+ name +:+ "/json"))
                is_HTTPError (fun e => raise (PypiError name e)) ;;
  data <- lift (json_loads response) ;;
  releases <- lift (getitem data "releases") ;;
  versions <- lift (keys releases) ;;
  if decide (version ∈ versions) then raise (VersionExists name version)
  else ret tt.

(** [check_version_format] *)
Definition check_version_format (name version : string) : M unit :=
  if negb (String.eqb (safe_version version) version) then
    raise (InvalidVersionFormat name version)
  else ret tt.

(** [_parse_args] *)
Definition _parse_args (args : list string) : M Parameters.t :=
  parameters <- lift (parse_args args) ;;
  let module_name := Namespace.module parameters in
  module <- _resolve_module module_name ;;
  version_type <- lift (_parse_version_type parameters) ;;
  version <- lift (getattr_version module) ;;
  ret {| Parameters.warehouse := Namespace.warehouse parameters;
         Parameters.package := module_name;
         Parameters.version := version;
         Parameters.expected_type := version_type;
         Parameters.dry_run := Namespace.dry parameters |}.

(** [main] *)
Definition main (args : list string) : M unit :=
  p <- _parse_args args ;;
  check_version_format (Parameters.package p) (Parameters.version p) ;;
  match Parameters.expected_type p with
  | Some expected => check_version_type expected (Parameters.version p)
  | None => ret tt
  end ;;
  (if negb (Parameters.dry_run p) then
     check_unique (Parameters.package p) (Parameters.version p)
       (Parameters.warehouse p)
   else ret tt) ;;
  print (ok_line (Parameters.package p) (Parameters.version p)).

(** The checks between the command line and the lookup, as one test. *)
Definition checks_pass (p : Parameters.t) : bool :=
  String.eqb (safe_version (Parameters.version p)) (Parameters.version p)
  && match Parameters.expected_type p with
     | Some expected => Z.eqb (VersionType.parse (Parameters.version p)) expected
     | None => true
     end.

(** The [if __name__ == '__main__'] block, on [sys.argv]: the exit status of
    the process and the world it leaves.  [sys.path.insert(0, os.getcwd())]
    is part of [importable]: the working directory is searched first. *)
Definition run (argv : list string) (w : World) : Z * World :=
  let (r, w') := main (tl argv) w in (exit_status r, w').

End Program.

(** ** The lookup, from outside *)

(** The address the lookup asks. *)
Definition json_url (warehouse name : string) : string :=
  warehouse +:+ "/" +:+ name +:+ "/json".

(** The world after the one request of a lookup. *)
Definition asked (url : string) (w : World) : World := snd (urlopen url w).

(** ** The normal form of a version

    Modelled from the spec: this module stands for
    [pkg_resources.safe_version] and for what it calls,
    [packaging.version.Version]; neither is among the sources.  Strings are
    taken as sequences of characters below 256. *)

Module SafeVersion.

(** *** Characters *)

Definition in_range (lo hi : nat) (c : ascii) : bool :=
  let n := nat_of_ascii c in Nat.leb lo n && Nat.leb n hi.

Definition is_digit (c : ascii) : bool := in_range 48 57 c.
Definition is_upper (c : ascii) : bool := in_range 65 90 c.
Definition is_lower (c : ascii) : bool := in_range 97 122 c.
Definition is_alnum (c : ascii) : bool := is_digit c || is_upper c || is_lower c.

(** The class [[-_.]] of the version pattern. *)
Definition is_sep (c : ascii) : bool :=
  Ascii.eqb c "-" || Ascii.eqb c "_" || Ascii.eqb c ".".

(** The class [\s] on the characters below 256. *)
Definition is_space (c : ascii) : bool :=
  in_range 9 13 c || in_range 28 32 c || in_range 133 133 c || in_range 160 160 c.

Definition lower_char (c : ascii) : ascii :=
  if is_upper c then ascii_of_nat (nat_of_ascii c + 32) else c.

Fixpoint lower (s : string) : string :=
  match s with
  | EmptyString => EmptyString
  | String c s' => String (lower_char c) (lower s')
  end.

(** *** Pieces of text *)

(** The longest prefix of characters in a class, and what follows it. *)
Fixpoint span (p : ascii -> bool) (s : string) : string * string :=
  match s with
  | EmptyString => (EmptyString, EmptyString)
  | String c s' =>
      if p c then let (a, b) := span p s' in (String c a, b)
      else (EmptyString, s)
  end.

(** [s] without the prefix [p], when it starts with it. *)
Fixpoint strip_prefix (p s : string) : option string :=
  match p, s with
  | EmptyString, _ => Some s
  | String _ _, EmptyString => None
  | String a p', String b s' => if Ascii.eqb a b then strip_prefix p' s' else None
  end.

(** [s.strip()] *)
Fixpoint rstrip (s : string) : string :=
  match s with
  | EmptyString => EmptyString
  | String c s' =>
      match rstrip s' with
      | EmptyString => if is_space c then EmptyString else String c EmptyString
      | t => String c t
      end
  end.

Definition strip (s : string) : string := rstrip (snd (span is_space s)).

(** An optional separator [[-_.]?]. *)
Definition opt_sep (s : string) : string :=
  match s with
  | String c s' => if is_sep c then s' else s
  | EmptyString => EmptyString
  end.

(** The first spelling of a table that [s] starts with, as the normal
    letter it stands for and what follows it. *)
Fixpoint first_prefix (table : list (string * string)) (s : string)
  : option (string * string) :=
  match table with
  | [] => None
  | (spelling, letter) :: table' =>
      match strip_prefix spelling s with
      | Some rest => Some (letter, rest)
      | None => first_prefix table' s
      end
  end.

(** [elem+ (sep elem+)*]: the segments and what follows them. *)
Fixpoint segments (elem sep : ascii -> bool) (s : string)
  : option (list string * string) :=
  match s with
  | EmptyString => None
  | String c s' =>
      if elem c then
        match s' with
        | EmptyString => Some ([String c EmptyString], EmptyString)
        | String d s'' =>
            if elem d then
              match segments elem sep s' with
              | Some (seg :: segs, rest) => Some (String c seg :: segs, rest)
              | _ => None
              end
            else if sep d then
              match segments elem sep s'' with
              | Some (segs, rest) => Some (String c EmptyString :: segs, rest)
              | None => Some ([String c EmptyString], s')
              end
            else Some ([String c EmptyString], s')
        end
      else None
  end.

(** [str(int(digits))]: no leading zero; no digit at all counts as 0. *)
Fixpoint drop_zeros (s : string) : string :=
  match s with
  | String c s' => if Ascii.eqb c "0" then drop_zeros s' else s
  | EmptyString => EmptyString
  end.

Definition int_str (digits : string) : string :=
  match drop_zeros digits with
  | EmptyString => "0"
  | s => s
  end.

Fixpoint all_chars (p : ascii -> bool) (s : string) : bool :=
  match s with
  | EmptyString => true
  | String c s' => p c && all_chars p s'
  end.

Fixpoint join (sep : string) (l : list string) : string :=
  match l with
  | [] => EmptyString
  | [a] => a
  | a :: l' => a +:+ sep +:+ join sep l'
  end.

(** *** A version

    Modelled from the spec: the parts of a version as
    [packaging.version.Version] holds them; a number is kept as its digits. *)

Record version := {
  epoch : string;
  release : list string;
  pre : option (string * string);
  post : option string;
  dev : option string;
  local : option (list string)
}.

(** Modelled from the spec: the spellings of the pre-release and
    post-release letters, each with the letter it is normalised to; a longer
    spelling comes before its prefixes. *)
Definition pre_letters : list (string * string) :=
  [("preview", "rc"); ("pre", "rc"); ("alpha", "a"); ("a", "a");
   ("beta", "b"); ("b", "b"); ("rc", "rc"); ("c", "rc")].

Definition post_letters : list (string * string) :=
  [("post", "post"); ("rev", "post"); ("r", "post")].

Definition dev_letters : list (string * string) := [("dev", "dev")].

(** Modelled from the spec: a group [[-_.]? letter [-_.]? [0-9]*] of the
    version pattern: the letter, the number, what follows. *)
Definition letter_group (table : list (string * string)) (s : string)
  : option (string * string * string) :=
  match first_prefix table (opt_sep s) with
  | Some (letter, rest) =>
      let (number, rest') := span is_digit (opt_sep rest) in
      Some (letter, number, rest')
  | None => None
  end.

(** Modelled from the spec: the post-release group of the version
    pattern: [-N], or a letter group. *)
Definition post_group (s : string) : option (string * string) :=
  match s with
  | String c (String d _ as s') =>
      if Ascii.eqb c "-" && is_digit d then Some (span is_digit s')
      else
        match letter_group post_letters s with
        | Some (_, number, rest) => Some (number, rest)
        | None => None
        end
  | _ =>
      match letter_group post_letters s with
      | Some (_, number, rest) => Some (number, rest)
      | None => None
      end
  end.

(** Modelled from the spec: the version pattern of PEP 440 that the rule of
    section 4.2 rests on, matched against a lower-cased, stripped string:
    [v? (N!)? N(.N)* pre? post? dev? (+local)?] up to the end.  Each group is
    taken when it matches, as the greedy pattern does. *)
Definition parse (s : string) : option version :=
  let s := match strip_prefix "v" s with Some s' => s' | None => s end in
  let (e, s) :=
    match span is_digit s with
    | (String c ds, String b s') =>
        if Ascii.eqb b "!" then (String c ds, s') else (EmptyString, s)
    | _ => (EmptyString, s)
    end in
  match segments is_digit (Ascii.eqb ".") s with
  | None => None
  | Some (rel, s) =>
      let (p, s) :=
        match letter_group pre_letters s with
        | Some (letter, number, rest) => (Some (letter, number), rest)
        | None => (None, s)
        end in
      let (po, s) :=
        match post_group s with
        | Some (number, rest) => (Some number, rest)
        | None => (None, s)
        end in
      let (d, s) :=
        match letter_group dev_letters s with
        | Some (_, number, rest) => (Some number, rest)
        | None => (None, s)
        end in
      match s with
      | EmptyString =>
          Some {| epoch := e; release := rel; pre := p; post := po; dev := d;
                  local := None |}
      | String c s' =>
          if Ascii.eqb c "+" then
            match segments (fun x => is_digit x || is_lower x) is_sep s' with
            | Some (loc, EmptyString) =>
                Some {| epoch := e; release := rel; pre := p; post := po; dev := d;
                        local := Some loc |}
            | _ => None
            end
          else None
      end
  end.

(** Modelled from the spec: the normal form of a parsed version,
    [str(Version)]: the epoch when it is not 0, the release numbers, the
    pre-release letter and number, [.postN], [.devN], [+local]. *)
Definition to_string (v : version) : string :=
  (if String.eqb (int_str (epoch v)) "0" then "" else int_str (epoch v) +:+ "!")
  +:+ join "." (map int_str (release v))
  +:+ match pre v with
     | Some (letter, number) => letter +:+ int_str number
     | None => ""
     end
  +:+ match post v with Some number => ".post" +:+ int_str number | None => "" end
  +:+ match dev v with Some number => ".dev" +:+ int_str number | None => "" end
  +:+ match local v with
     | Some parts =>
         "+" +:+ join "." (map (fun part => if all_chars is_digit part
                                           then int_str part else part) parts)
     | None => ""
     end.

(** Modelled from the spec: what the rule does to a string that is no
    PEP 440 version: every space becomes a dot, then every run of characters
    other than letters, digits and dots becomes one "-". *)
Definition kept (c : ascii) : bool := is_alnum c || Ascii.eqb c ".".

Definition space_to_dot (c : ascii) : ascii := if Ascii.eqb c " " then "."%char else c.

Fixpoint fallback (s : string) : string :=
  match s with
  | EmptyString => EmptyString
  | String c s' =>
      if kept (space_to_dot c) then String (space_to_dot c) (fallback s')
      else
        match s' with
        | EmptyString => "-"
        | String d _ => if kept (space_to_dot d) then String "-" (fallback s') else fallback s'
        end
  end.

(** Modelled from the spec: [pkg_resources.safe_version], which the program
    imports and which is not among its sources.  Section 4.2 names the rule,
    the PEP 440 safe version transformation; it is written here as the
    library computes it: the normal form of the version when the string is a
    PEP 440 version, the string with its spaces and other runs replaced when
    it is not.  This agrees with the scenarios of section 8 (1.0.0 passes,
    1.0.0A1 has the normal form 1.0.0a1).  The summary of section 4.2, lower
    case and one "-" for every run of characters that are not alphanumeric,
    does not: it would turn 1.0.0 into 1-0-0. *)
Definition safe_version (v : string) : string :=
  match parse (strip (lower v)) with
  | Some parsed => to_string parsed
  | None => fallback v
  end.

End SafeVersion.

(** ** Running the program: a parser, a decoder and worlds to run it in

    [parse_args] and [json_loads] are parameters of the program.  To run it on
    concrete inputs they are instantiated here by small stand-ins. *)

Module Demo.

(** A stand-in for [parser.parse_args]: the options spelled exactly as in
    the [add_argument] calls, [-w]/[--warehouse] followed by its value, one
    positional argument; a usage error is argparse's [sys.exit(2)]. *)
Fixpoint scan (args : list string) (module : option string) (warehouse : string)
    (alpha beta rc dev release dry : bool) : Outcome Namespace.t :=
  match args with
  | [] =>
      match module with
      | Some m =>
          Ok {| Namespace.module := m; Namespace.warehouse := warehouse;
                Namespace.alpha := alpha; Namespace.beta := beta;
                Namespace.rc := rc; Namespace.dev := dev;
                Namespace.release := release; Namespace.dry := dry |}
      | None => Raise (SystemExit 2)
      end
  | a :: rest =>
      if String.eqb a "--alpha" then scan rest module warehouse true beta rc dev release dry
      else if String.eqb a "--beta" then scan rest module warehouse alpha true rc dev release dry
      else if String.eqb a "--rc" then scan rest module warehouse alpha beta true dev release dry
      else if String.eqb a "--dev" then scan rest module warehouse alpha beta rc true release dry
      else if String.eqb a "--release" then scan rest module warehouse alpha beta rc dev true dry
      else if String.eqb a "--dry" then scan rest module warehouse alpha beta rc dev release true
      else if String.eqb a "-w" || String.eqb a "--warehouse" then
        match rest with
        | url :: rest' => scan rest' module url alpha beta rc dev release dry
        | [] => Raise (SystemExit 2)
        end
      else
        match module with
        | None => scan rest (Some a) warehouse alpha beta rc dev release dry
        | Some _ => Raise (SystemExit 2)
        end
  end.

Definition parse_args (args : list string) : Outcome Namespace.t :=
  scan args None "https://pypi.org/pypi" false false false false false false.

(** A stand-in for [json.loads]: the body is read as the one version the
    index lists, that is as the document whose [releases] object has the
    body as its only key. *)
Definition json_loads (body : string) : Outcome json :=
  Ok (JObject {[ "releases" := JObject {[ body := JArray [] ]} ]}).

(** The version rule of the examples: every version is in normal form. *)
Definition safe_version (version : string) : string := version.

(** A project directory with the module [pkg] at version [v], nothing
    imported yet, and a network that answers [answer] at every URL. *)
Definition world (v : string) (answer : Outcome string) : World :=
  {| sys_modules := ∅;
     importable := fun name =>
       if String.eqb name "pkg"
       then Ok {| __file__ := "./pkg.py"; __version__ := Some v |}
       else Raise (ModuleNotFoundError name);
     network := fun _ => answer;
     requests := [];
     stdout := [] |}.

End Demo.

(** ** Notions the statements use *)

Definition flags (release alpha beta rc dev : bool) : Namespace.t :=
  {| Namespace.module := "pkg"; Namespace.warehouse := "https://pypi.org/pypi";
     Namespace.alpha := alpha; Namespace.beta := beta; Namespace.rc := rc;
     Namespace.dev := dev; Namespace.release := release; Namespace.dry := false |}.

(** How many of a list of tests hold. *)
Definition count_true (l : list bool) : nat :=
  fold_right (fun (b : bool) n => if b then S n else n) 0%nat l.

(** [offline c]: the computation [c] sends no request, prints nothing, and
    neither changes nor looks at the network: run against another network
    it does the same. *)
Definition offline {A} (c : M A) : Prop :=
  forall w,
    (requests (snd (c w)) = requests w /\ stdout (snd (c w)) = stdout w
     /\ network (snd (c w)) = network w) /\
    forall net, c (with_network net w) = (fst (c w), with_network net (snd (c w))).

(** A process that has an installed [pkg] cached, run in a directory that
    holds the development copy. *)
Definition installed : pymodule :=
  {| __file__ := "site-packages/pkg.py"; __version__ := Some "0.9.0" |}.

Definition world_installed : World :=
  with_modules {[ "pkg" := PyModule installed ]} (Demo.world "1.0.0" (Ok "0.9.0")).

(** The value a flag of the command line adds to the expected type. *)
Definition flag_value (set : bool) (flag : VersionType.t) : VersionType.t :=
  if set then flag else VersionType.RELEASE.

(** The flags of a command line or-ed together. *)
Definition flags_value (ns : Namespace.t) : VersionType.t :=
  Z.lor (Z.lor (Z.lor (flag_value (Namespace.alpha ns) VersionType.ALPHA)
                      (flag_value (Namespace.beta ns) VersionType.BETA))
               (flag_value (Namespace.rc ns) VersionType.RC))
        (flag_value (Namespace.dev ns) VersionType.DEV).

(** The flag combinations the error texts of [_parse_version_type] name:
    [--release] with another flag, or two of [--alpha], [--beta], [--rc]. *)
Definition conflicting (ns : Namespace.t) : bool :=
  Namespace.release ns
  && (Namespace.alpha ns || Namespace.beta ns || Namespace.rc ns || Namespace.dev ns)
  || Namespace.alpha ns && (Namespace.beta ns || Namespace.rc ns)
  || Namespace.beta ns && Namespace.rc ns.

(** The world after a line is printed. *)
Definition printed (line : string) (w : World) : World := snd (print line w).

(** * Properties *)

Import VersionType.

(** ** Substrings *)

Module StrFacts.

Import Str.

Lemma app_nil (s : string) : String.append EmptyString s = s.
Proof. reflexivity. Qed.

Lemma app_cons (a : ascii) (p s : string) :
  String.append (String a p) s = String a (String.append p s).
Proof. reflexivity. Qed.

Lemma starts_spec (p s : string) :
  starts p s = true <-> exists post, s = String.append p post.
Proof.
  revert s. induction p as [|a p IH]; intros s; simpl.
  - split; [intros _; now exists s | reflexivity].
  - destruct s as [|b s].
    + split; [discriminate | intros [post H]; rewrite app_cons in H; discriminate].
    + destruct (Ascii.eqb a b) eqn:E.
      * apply Ascii.eqb_eq in E. subst b. rewrite IH.
        split; intros [post H]; exists post; rewrite app_cons in *; congruence.
      * apply Ascii.eqb_neq in E.
        split; [discriminate | intros [post H]; rewrite app_cons in H; congruence].
Qed.

Lemma contains_spec (sub s : string) :
  contains sub s = true <-> occurs sub s.
Proof.
  unfold occurs. induction s as [|c s IH]; simpl.
  - rewrite starts_spec. split.
    + intros [post H]. exists EmptyString, post. exact H.
    + intros [pre [post H]]. destruct pre.
      * rewrite app_nil in H. now exists post.
      * rewrite app_cons in H. discriminate.
  - rewrite orb_true_iff, starts_spec, IH. split.
    + intros [[post H] | [pre [post H]]].
      * exists EmptyString, post. exact H.
      * exists (String c pre), post. rewrite app_cons. now rewrite H.
    + intros [pre [post H]]. destruct pre as [|d pre].
      * left. rewrite app_nil in H. now exists post.
      * right. rewrite app_cons in H. exists pre, post. congruence.
Qed.

Lemma contains_false (sub s : string) :
  contains sub s = false <-> ~ occurs sub s.
Proof.
  rewrite <- contains_spec. destruct (contains sub s); split; intros H;
    try reflexivity; try discriminate; try (intros K; discriminate).
  now elim H.
Qed.

End StrFacts.

(** ** The classifier [VersionType.parse] *)

Example parse_release : VersionType.parse "1.0.0" = VersionType.RELEASE.
Proof. reflexivity. Qed.

Example parse_alpha_dev : VersionType.parse "1.0.0a1.dev1" = 9.
Proof. reflexivity. Qed.

Ltac flags_cases v :=
  unfold parse;
  destruct (Str.contains "a" v), (Str.contains "b" v),
           (Str.contains "rc" v), (Str.contains "dev" v).

(** C6: for every version string [v], [VersionType.parse v] holds ALPHA
    exactly when "a" occurs in [v], BETA exactly when "b" occurs, RC exactly
    when "rc" occurs, DEV exactly when "dev" occurs, and it is RELEASE (no flag)
    exactly when none of the four occurs; a string with "a" and none of "b",
    "rc", "dev" is classified as ALPHA alone. *)
Theorem parse_classifies (v : string) :
  (has (parse v) ALPHA = true <-> Str.occurs "a" v) /\
  (has (parse v) BETA = true <-> Str.occurs "b" v) /\
  (has (parse v) RC = true <-> Str.occurs "rc" v) /\
  (has (parse v) DEV = true <-> Str.occurs "dev" v) /\
  (parse v = RELEASE <->
     ~ Str.occurs "a" v /\ ~ Str.occurs "b" v /\
     ~ Str.occurs "rc" v /\ ~ Str.occurs "dev" v) /\
  (Str.occurs "a" v -> ~ Str.occurs "b" v -> ~ Str.occurs "rc" v ->
     ~ Str.occurs "dev" v -> parse v = ALPHA).
Proof.
  rewrite <- !StrFacts.contains_false, <- !StrFacts.contains_spec.
  flags_cases v; vm_compute; intuition congruence.
Qed.

(** The last part of [parse_classifies] on a version that occurs in the
    help text of [--alpha]. *)
Lemma parse_classifies_witness : parse "1.0.0a1" = ALPHA.
Proof.
  apply (parse_classifies "1.0.0a1");
    rewrite <- ?StrFacts.contains_false, <- ?StrFacts.contains_spec; reflexivity.
Defined.

(** ** The flag table [_parse_version_type] *)

Ltac flag_cases ns :=
  destruct ns as [module_ warehouse_ [] [] [] [] [] dry_];
  unfold _parse_version_type; simpl.

(** C1, as it is written, fails: [--release --dev] alone is refused. *)
Lemma release_dev_refused :
  _parse_version_type (flags true false false false true)
  = Raise (InvalidRequirements
             "--release cannot be combined with --alpha, --beta, --rc, or --dev")
  /\ _parse_version_type (flags true false false false true)
     <> Ok (Some (Z.lor RELEASE DEV)).
Proof. split; [reflexivity | discriminate]. Qed.

(** C1, amended: whenever [--release] and [--dev] are both set the resolver
    raises InvalidRequirements; the type RELEASE combined with DEV, which is
    DEV alone, is what [--dev] gives when none of [--release], [--alpha],
    [--beta], [--rc] is set. *)
Theorem release_excludes_dev (ns : Namespace.t) :
  (Namespace.release ns = true -> Namespace.dev ns = true ->
   _parse_version_type ns
   = Raise (InvalidRequirements
              "--release cannot be combined with --alpha, --beta, --rc, or --dev")) /\
  (Namespace.dev ns = true -> Namespace.release ns = false ->
   Namespace.alpha ns = false -> Namespace.beta ns = false ->
   Namespace.rc ns = false ->
   _parse_version_type ns = Ok (Some (Z.lor RELEASE DEV)) /\ Z.lor RELEASE DEV = DEV).
Proof.
  flag_cases ns; split; intros; try discriminate; auto.
Qed.

Lemma release_excludes_dev_witness :
  _parse_version_type (flags true false false false true)
  = Raise (InvalidRequirements
             "--release cannot be combined with --alpha, --beta, --rc, or --dev")
  /\ _parse_version_type (flags false false false false true) = Ok (Some DEV).
Proof.
  split.
  - apply (release_excludes_dev (flags true false false false true)); reflexivity.
  - apply (release_excludes_dev (flags false false false false true)); reflexivity.
Defined.

(** C7: when at least two of [--alpha], [--beta], [--rc] are set, whatever the
    other flags, the resolver raises InvalidRequirements. *)
Theorem two_channels_refused (ns : Namespace.t) :
  Namespace.alpha ns && Namespace.beta ns
  || Namespace.alpha ns && Namespace.rc ns
  || Namespace.beta ns && Namespace.rc ns = true ->
  exists msg, _parse_version_type ns = Raise (InvalidRequirements msg).
Proof.
  flag_cases ns; intros H; try discriminate H; eauto.
Qed.

Lemma two_channels_refused_witness :
  exists msg,
    _parse_version_type (flags false false true true true)
    = Raise (InvalidRequirements msg).
Proof.
  apply (two_channels_refused (flags false false true true true)). reflexivity.
Defined.

(** C10: an expected type the resolver returns is RELEASE, ALPHA, BETA or RC,
    alone or combined with DEV; it never holds two of ALPHA, BETA, RC. *)
Theorem expected_type_one_channel (ns : Namespace.t) (vt : VersionType.t) :
  _parse_version_type ns = Ok (Some vt) ->
  (exists base, In base [RELEASE; ALPHA; BETA; RC] /\
                (vt = base \/ vt = Z.lor base DEV)) /\
  (count_true [has vt ALPHA; has vt BETA; has vt RC] <= 1)%nat.
Proof.
  flag_cases ns; intros H; inversion H; subst vt; clear H;
    (split; [| vm_compute; lia]).
  all: first
    [ exists RELEASE; split; [simpl; tauto | (left; reflexivity) || (right; reflexivity)]
    | exists ALPHA; split; [simpl; tauto | (left; reflexivity) || (right; reflexivity)]
    | exists BETA; split; [simpl; tauto | (left; reflexivity) || (right; reflexivity)]
    | exists RC; split; [simpl; tauto | (left; reflexivity) || (right; reflexivity)] ].
Qed.

Lemma expected_type_one_channel_witness :
  (exists base, In base [RELEASE; ALPHA; BETA; RC] /\
                (9 = base \/ 9 = Z.lor base DEV)) /\
  (count_true [has 9%Z ALPHA; has 9%Z BETA; has 9%Z RC] <= 1)%nat.
Proof.
  apply (expected_type_one_channel (flags false true false false true) 9).
  reflexivity.
Defined.

(** ** The scenarios of the specification *)

(** The first scenarios of the specification: [pkg] at 1.0.0 with 0.9.0
    published passes; [pkg] at 0.9.0 is refused. *)
Example scenario_fresh :
  let (status, w) :=
    run Demo.safe_version Demo.parse_args Demo.json_loads ["cv"; "pkg"]
      (Demo.world "1.0.0" (Ok "0.9.0")) in
  status = 0 /\ stdout w = ["OK: pkg 1.0.0 is valid and not present on PyPI."]
  /\ requests w = ["https://pypi.org/pypi/pkg/json"].
Proof. vm_compute. auto. Qed.

Example scenario_published :
  fst (main Demo.safe_version Demo.parse_args Demo.json_loads ["pkg"]
         (Demo.world "0.9.0" (Ok "0.9.0")))
  = Raise (VersionExists "pkg" "0.9.0").
Proof. reflexivity. Qed.

Example scenario_alpha_dev :
  fst (main Demo.safe_version Demo.parse_args Demo.json_loads
         ["pkg"; "--alpha"; "--dev"] (Demo.world "1.0.0a1.dev1" (Ok "0.9.0")))
  = Ok tt.
Proof. reflexivity. Qed.

(** ** Steps that stay off the network and off the screen *)

Ltac step :=
  match goal with
  | H : (_, _) = (_, _) |- _ => inversion H; subst; clear H
  | H : context [match ?x with _ => _ end] |- _ => destruct x eqn:?
  | |- context [match ?x with _ => _ end] => destruct x eqn:?
  end.

Ltac unfold_m :=
  unfold invalidate_caches in *;
  unfold bind, lift, ret, raise, try_except, urlopen, print, sys_modules_pop,
    sys_modules_setitem, import_module, with_modules, with_network in *.

Create HintDb offline.

Lemma offline_ret {A} (a : A) : offline (ret a).
Proof. intros w. split; [auto | reflexivity]. Qed.

Lemma offline_raise {A} (e : exn) : offline (@raise A e).
Proof. intros w. split; [auto | reflexivity]. Qed.

Lemma offline_lift {A} (r : Outcome A) : offline (lift r).
Proof. intros w. split; [auto | reflexivity]. Qed.

Lemma offline_bind {A B} (c : M A) (k : A -> M B) :
  offline c -> (forall a, offline (k a)) -> offline (bind c k).
Proof.
  intros Hc Hk w. destruct (Hc w) as [(Hr & Hs & Hn) Hnet]. unfold bind. split.
  - destruct (c w) as [[a | e] w1]; simpl in *; [| auto].
    destruct (Hk a w1) as [(Hr' & Hs' & Hn') _]. repeat split; congruence.
  - intros net. rewrite Hnet. destruct (c w) as [[a | e] w1]; simpl; [| reflexivity].
    destruct (Hk a w1) as [_ Hnet']. apply Hnet'.
Qed.

Lemma offline_if {A} (b : bool) (c d : M A) :
  offline c -> offline d -> offline (if b then c else d).
Proof. now destruct b. Qed.

Lemma offline_sys_modules_pop (name : string) : offline (sys_modules_pop name).
Proof.
  intros w. unfold sys_modules_pop, with_modules, with_network. simpl.
  destruct (sys_modules w !! name); split; auto.
Qed.

Lemma offline_sys_modules_setitem (name : string) (o : pyobj) :
  offline (sys_modules_setitem name o).
Proof. intros w. split; [auto | reflexivity]. Qed.

Lemma offline_import_module (name : string) : offline (import_module name).
Proof.
  intros w. unfold import_module, with_modules, with_network. simpl.
  destruct (sys_modules w !! name) as [[|m]|]; [split; auto .. |].
  destruct (importable w name); split; auto.
Qed.

#[local] Hint Resolve offline_ret offline_raise offline_lift offline_bind offline_if
  offline_sys_modules_pop offline_sys_modules_setitem offline_import_module : offline.

Lemma offline__resolve_module (name : string) : offline (_resolve_module name).
Proof. unfold _resolve_module, invalidate_caches. auto 10 with offline. Qed.

Lemma offline_check_version_type (expected : VersionType.t) (version : string) :
  offline (check_version_type expected version).
Proof. unfold check_version_type. auto with offline. Qed.

#[local] Hint Resolve offline__resolve_module offline_check_version_type : offline.

(** ** Module resolution and the module cache *)

(** C3, as it is written, fails: a name that was not cached is cached after
    the call. *)
Lemma resolve_caches_fresh_name :
  sys_modules (Demo.world "1.0.0" (Ok "")) !! "pkg" = None /\
  exists m w',
    _resolve_module "pkg" (Demo.world "1.0.0" (Ok "")) = (Ok m, w') /\
    sys_modules w' !! "pkg" = Some (PyModule m).
Proof.
  split; [reflexivity |].
  eexists _, _. split; reflexivity.
Qed.

(** C3, amended: when [_resolve_module] returns and the name was cached as a
    module beforehand, its cache entry is that same module again; when the
    name had no entry beforehand, or an entry holding [None], the module just
    imported is left in the cache under that name. *)
Theorem resolve_restores_cached (name : string) (w w' : World) (m : pymodule) :
  _resolve_module name w = (Ok m, w') ->
  (forall old, sys_modules w !! name = Some (PyModule old) ->
               sys_modules w' !! name = Some (PyModule old)) /\
  (sys_modules w !! name = None \/ sys_modules w !! name = Some PyNone ->
   sys_modules w' !! name = Some (PyModule m)).
Proof.
  unfold _resolve_module. unfold_m. intros H.
  destruct (sys_modules w !! name) as [[|old]|] eqn:Hold; simpl in H.
  - rewrite lookup_delete_eq in H. destruct (importable w name); inversion H; subst.
    split; [discriminate |]. intros _. simpl. apply lookup_insert_eq.
  - rewrite lookup_delete_eq in H. destruct (importable w name); inversion H; subst.
    split; [| intros [K | K]; discriminate K].
    intros old' K. inversion K; subst. simpl. apply lookup_insert_eq.
  - rewrite Hold in H. destruct (importable w name); inversion H; subst.
    split; [discriminate |]. intros _. simpl. apply lookup_insert_eq.
Qed.

Lemma resolve_restores_cached_witness :
  fst (_resolve_module "pkg" world_installed)
  = Ok {| __file__ := "./pkg.py"; __version__ := Some "1.0.0" |}
  /\ sys_modules (snd (_resolve_module "pkg" world_installed)) !! "pkg"
     = Some (PyModule installed).
Proof.
  split; [reflexivity |].
  apply (proj1 (resolve_restores_cached "pkg" world_installed
                  (snd (_resolve_module "pkg" world_installed))
                  {| __file__ := "./pkg.py"; __version__ := Some "1.0.0" |}
                  eq_refl)).
  reflexivity.
Defined.

(** ** The index lookup [check_unique] *)

Section CheckUnique.

Variable json_loads : string -> Outcome json.

Lemma check_unique_failed (name version warehouse : string) (w : World) (e : exn) :
  network w (json_url warehouse name) = Raise e ->
  check_unique json_loads name version warehouse w
  = (Raise (if is_HTTPError e then PypiError name e else e),
     asked (json_url warehouse name) w).
Proof.
  intros H. unfold check_unique, asked, json_url in *. unfold_m. simpl.
  rewrite H. destruct (is_HTTPError e); reflexivity.
Qed.

Lemma check_unique_answered (name version warehouse : string) (w : World)
    (body : string) (data : json) (releases : gmap string json) :
  network w (json_url warehouse name) = Ok body ->
  json_loads body = Ok data ->
  getitem data "releases" = Ok (JObject releases) ->
  check_unique json_loads name version warehouse w
  = (if decide (version ∈ dom releases)
     then Raise (VersionExists name version) else Ok tt,
     asked (json_url warehouse name) w).
Proof.
  intros Hn Hj Hg. unfold check_unique, asked, json_url in *. unfold_m. simpl.
  rewrite Hn, Hj, Hg. simpl. destruct (decide (version ∈ dom releases)); reflexivity.
Qed.

End CheckUnique.

(** C2, as it is written, fails: a refused connection leaves [check_unique]
    with the [URLError] of [urlopen], not with [PypiError]. *)
Lemma connection_refused_not_wrapped :
  fst (check_unique Demo.json_loads "pkg" "1.0.0" "https://pypi.org/pypi"
         (Demo.world "1.0.0" (Raise (URLError "[Errno 111] Connection refused"))))
  = Raise (URLError "[Errno 111] Connection refused")
  /\ forall cause,
      fst (check_unique Demo.json_loads "pkg" "1.0.0" "https://pypi.org/pypi"
             (Demo.world "1.0.0" (Raise (URLError "[Errno 111] Connection refused"))))
      <> Raise (PypiError "pkg" cause).
Proof. split; [reflexivity | intros cause; discriminate]. Qed.

(** C2, amended: whenever the GET fails, [check_unique] fails after that one
    request, without trying again; when the failure is an HTTP error status
    (an [HTTPError], such as 404) it fails with [PypiError] carrying the
    package name. *)
Theorem failed_fetch_is_terminal (json_loads : string -> Outcome json)
    (name version warehouse : string) (w : World) (e : exn) :
  network w (json_url warehouse name) = Raise e ->
  exists e' w',
    check_unique json_loads name version warehouse w = (Raise e', w') /\
    requests w' = (requests w ++ [json_url warehouse name])%list /\
    (is_HTTPError e = true -> e' = PypiError name e).
Proof.
  intros H. rewrite (check_unique_failed json_loads name version warehouse w e H).
  eexists _, _. split; [reflexivity |]. split; [reflexivity |].
  intros K. now rewrite K.
Qed.

Lemma failed_fetch_is_terminal_witness :
  exists e' w',
    check_unique Demo.json_loads "pkg" "1.0.0" "https://pypi.org/pypi"
      (Demo.world "1.0.0" (Raise (HTTPError 404))) = (Raise e', w') /\
    requests w' = ["https://pypi.org/pypi/pkg/json"] /\
    (true = true -> e' = PypiError "pkg" (HTTPError 404)).
Proof.
  apply (failed_fetch_is_terminal Demo.json_loads "pkg" "1.0.0" "https://pypi.org/pypi"
           (Demo.world "1.0.0" (Raise (HTTPError 404))) (HTTPError 404)).
  reflexivity.
Defined.

(** C5: when the GET succeeds and the body decodes to a document with a
    [releases] mapping, [check_unique] raises [VersionExists] for the package
    and the version exactly when the version is a key of the mapping, and
    returns without an error exactly when it is not. *)
Theorem published_version_refused (json_loads : string -> Outcome json)
    (name version warehouse : string) (w : World)
    (body : string) (data : json) (releases : gmap string json) :
  network w (json_url warehouse name) = Ok body ->
  json_loads body = Ok data ->
  getitem data "releases" = Ok (JObject releases) ->
  (fst (check_unique json_loads name version warehouse w)
   = Raise (VersionExists name version) <-> is_Some (releases !! version)) /\
  (fst (check_unique json_loads name version warehouse w) = Ok tt
   <-> releases !! version = None).
Proof.
  intros Hn Hj Hg.
  rewrite (check_unique_answered json_loads name version warehouse w _ _ _ Hn Hj Hg).
  simpl. destruct (decide (version ∈ dom releases)) as [Hin | Hout].
  - apply elem_of_dom in Hin. split; split; intros K; auto; try discriminate.
    rewrite K in Hin. now destruct Hin.
  - rewrite elem_of_dom in Hout. split; split; intros K; auto; try discriminate.
    + contradiction.
    + now apply eq_None_not_Some.
Qed.

Lemma published_version_refused_witness :
  (fst (check_unique Demo.json_loads "pkg" "0.9.0" "https://pypi.org/pypi"
          (Demo.world "0.9.0" (Ok "0.9.0")))
   = Raise (VersionExists "pkg" "0.9.0")
   <-> is_Some (({[ "0.9.0" := JArray [] ]} : gmap string json) !! "0.9.0")) /\
  (fst (check_unique Demo.json_loads "pkg" "0.9.0" "https://pypi.org/pypi"
          (Demo.world "0.9.0" (Ok "0.9.0"))) = Ok tt
   <-> ({[ "0.9.0" := JArray [] ]} : gmap string json) !! "0.9.0" = None).
Proof.
  apply (published_version_refused Demo.json_loads "pkg" "0.9.0" "https://pypi.org/pypi"
           (Demo.world "0.9.0" (Ok "0.9.0")) "0.9.0"
           (JObject {[ "releases" := JObject {[ "0.9.0" := JArray [] ]} ]}));
    reflexivity.
Defined.

(** ** The whole run *)

Section Run.

Variable safe_version : string -> string.
Variable parse_args : list string -> Outcome Namespace.t.
Variable json_loads : string -> Outcome json.

Lemma offline__parse_args (args : list string) :
  offline (_parse_args parse_args args).
Proof. unfold _parse_args. auto 10 with offline. Qed.

Lemma check_version_format_run (name version : string) (w : World) :
  check_version_format safe_version name version w
  = (if String.eqb (safe_version version) version then Ok tt
     else Raise (InvalidVersionFormat name version), w).
Proof.
  unfold check_version_format.
  destruct (String.eqb (safe_version version) version); reflexivity.
Qed.

Lemma check_version_type_run (expected : VersionType.t) (version : string) (w : World) :
  check_version_type expected version w
  = (if Z.eqb (parse version) expected then Ok tt
     else Raise (VersionTypeMismatch version (parse version) expected), w).
Proof.
  unfold check_version_type.
  destruct (Z.eqb (parse version) expected); reflexivity.
Qed.

(** A lookup leaves the world as its one request leaves it. *)
Lemma check_unique_frame (name version warehouse : string) (w w' : World)
    (r : Outcome unit) :
  check_unique json_loads name version warehouse w = (r, w') ->
  w' = asked (json_url warehouse name) w.
Proof.
  unfold check_unique, asked, json_url. unfold_m. simpl. intros H.
  repeat (step; simpl in * ); reflexivity.
Qed.

Lemma _parse_args_fields (args : list string) (w w' : World) (ns : Namespace.t)
    (p : Parameters.t) :
  parse_args args = Ok ns ->
  _parse_args parse_args args w = (Ok p, w') ->
  Parameters.package p = Namespace.module ns /\
  Parameters.warehouse p = Namespace.warehouse ns /\
  Parameters.dry_run p = Namespace.dry ns /\
  _parse_version_type ns = Ok (Parameters.expected_type p).
Proof.
  intros Hns. unfold _parse_args. unfold_m. rewrite Hns. intros H.
  destruct (_resolve_module (Namespace.module ns) w) as [[m | e] w1];
    [| discriminate H].
  destruct (_parse_version_type ns) as [vt | e]; [| discriminate H].
  destruct (getattr_version m); inversion H; subst. simpl. auto.
Qed.

(** [main] once the command line is resolved and the checks have passed. *)
Lemma main_checked (args : list string) (w w1 : World) (p : Parameters.t) :
  _parse_args parse_args args w = (Ok p, w1) ->
  checks_pass safe_version p = true ->
  main safe_version parse_args json_loads args w
  = ((if negb (Parameters.dry_run p) then
        check_unique json_loads (Parameters.package p) (Parameters.version p)
          (Parameters.warehouse p)
      else ret tt) ;;
     print (ok_line (Parameters.package p) (Parameters.version p))) w1.
Proof.
  unfold main, checks_pass. intros Hp Hc. apply andb_prop in Hc as [Hf Ht].
  unfold bind at 1. rewrite Hp.
  unfold bind at 1. rewrite check_version_format_run, Hf.
  unfold bind at 1.
  destruct (Parameters.expected_type p) as [expected |]; [| reflexivity].
  rewrite check_version_type_run, Ht. reflexivity.
Qed.

(** A run that reaches its end resolved the command line and passed the
    checks. *)
Lemma main_ok (args : list string) (w w' : World) :
  main safe_version parse_args json_loads args w = (Ok tt, w') ->
  exists p w1,
    _parse_args parse_args args w = (Ok p, w1) /\ checks_pass safe_version p = true.
Proof.
  unfold main, checks_pass. unfold bind at 1.
  destruct (_parse_args parse_args args w) as [[p | e] w1]; [| discriminate].
  unfold bind at 1. rewrite check_version_format_run.
  destruct (String.eqb _ _) eqn:Hf; [| discriminate].
  unfold bind at 1. intros H. exists p, w1. split; [reflexivity |].
  rewrite Hf. simpl.
  destruct (Parameters.expected_type p) as [expected |]; [| reflexivity].
  rewrite check_version_type_run in H. destruct (Z.eqb _ _); [reflexivity | discriminate].
Qed.

End Run.

(** What [_parse_args] leaves of the world when it returns [w1] from [w]. *)
Lemma _parse_args_offline (parse_args : list string -> Outcome Namespace.t)
    (args : list string) (w w1 : World) (r : Outcome Parameters.t) :
  _parse_args parse_args args w = (r, w1) ->
  requests w1 = requests w /\ stdout w1 = stdout w /\
  forall net,
    _parse_args parse_args args (with_network net w) = (r, with_network net w1).
Proof.
  intros H. destruct (offline__parse_args parse_args args w) as [(Hr & Hs & _) Hnet].
  rewrite H in *. simpl in *. auto.
Qed.

(** C4, as it is written, fails: a run against another index than PyPI ends
    with the same line, which names PyPI and not the index that was asked. *)
Lemma custom_warehouse_named_pypi :
  let r := run Demo.safe_version Demo.parse_args Demo.json_loads
             ["cv"; "pkg"; "--warehouse"; "https://test.pypi.org/pypi"]
             (Demo.world "1.0.0" (Ok "0.9.0")) in
  fst r = 0 /\
  requests (snd r) = ["https://test.pypi.org/pypi/pkg/json"] /\
  stdout (snd r) = ["OK: pkg 1.0.0 is valid and not present on PyPI."] /\
  Str.contains "test.pypi.org" "OK: pkg 1.0.0 is valid and not present on PyPI." = false.
Proof. vm_compute. auto. Qed.

(** C4, amended: every run that succeeds, with the default or with a custom
    [--warehouse], exits with code 0 and prints, as its only output, the line
    "OK: <package> <version> is valid and not present on PyPI."; the text
    names PyPI whatever index was asked. *)
Theorem success_prints_ok (safe_version : string -> string)
    (parse_args : list string -> Outcome Namespace.t)
    (json_loads : string -> Outcome json)
    (prog : string) (args : list string) (w w' : World) :
  main safe_version parse_args json_loads args w = (Ok tt, w') ->
  run safe_version parse_args json_loads (prog :: args) w = (0, w') /\
  exists p w1,
    _parse_args parse_args args w = (Ok p, w1) /\
    stdout w'
    = (stdout w
       ++ ["OK: " +:+ Parameters.package p +:+ " " +:+ Parameters.version p
           +:+ " is valid and not present on PyPI."])%list.
Proof.
  intros H. split.
  - unfold run. simpl. now rewrite H.
  - destruct (main_ok _ _ _ _ _ _ H) as (p & w1 & Hp & Hc).
    exists p, w1. split; [exact Hp |].
    rewrite (main_checked _ _ json_loads _ _ _ _ Hp Hc) in H.
    apply _parse_args_offline in Hp as (_ & Hs & _). rewrite <- Hs.
    unfold bind in H. destruct (Parameters.dry_run p); simpl in H.
    + inversion H. reflexivity.
    + destruct (check_unique _ _ _ _ w1) as [[[] | e] w2] eqn:Hu; [| discriminate].
      apply check_unique_frame in Hu. subst w2. inversion H. reflexivity.
Qed.

Lemma success_prints_ok_witness :
  run Demo.safe_version Demo.parse_args Demo.json_loads
    ["cv"; "pkg"; "-w"; "https://test.pypi.org/pypi"] (Demo.world "1.0.0" (Ok "0.9.0"))
  = (0, snd (main Demo.safe_version Demo.parse_args Demo.json_loads
               ["pkg"; "-w"; "https://test.pypi.org/pypi"]
               (Demo.world "1.0.0" (Ok "0.9.0")))).
Proof.
  apply (success_prints_ok Demo.safe_version Demo.parse_args Demo.json_loads "cv"
           ["pkg"; "-w"; "https://test.pypi.org/pypi"]
           (Demo.world "1.0.0" (Ok "0.9.0"))).
  reflexivity.
Defined.

(** C9: a run with [--dry] whose version passes the format check and, when a
    type is expected, the type check, succeeds; it sends no request, and it
    does the same against any other network and with any other decoder. *)
Theorem dry_run_stays_offline (safe_version : string -> string)
    (parse_args : list string -> Outcome Namespace.t)
    (json_loads : string -> Outcome json)
    (args : list string) (w w1 : World) (ns : Namespace.t) (p : Parameters.t) :
  parse_args args = Ok ns ->
  Namespace.dry ns = true ->
  _parse_args parse_args args w = (Ok p, w1) ->
  checks_pass safe_version p = true ->
  exists w',
    main safe_version parse_args json_loads args w = (Ok tt, w') /\
    requests w' = requests w /\
    forall (json_loads' : string -> Outcome json) (net : string -> Outcome string),
      main safe_version parse_args json_loads' args (with_network net w)
      = (Ok tt, with_network net w').
Proof.
  intros Hns Hdry Hp Hc.
  destruct (_parse_args_fields _ _ _ _ _ _ Hns Hp) as (_ & _ & Hd & _).
  rewrite Hdry in Hd.
  destruct (_parse_args_offline _ _ _ _ _ Hp) as (Hr & _ & Hnet).
  eexists. split; [| split].
  - rewrite (main_checked _ _ json_loads _ _ _ _ Hp Hc), Hd. reflexivity.
  - simpl. exact Hr.
  - intros json_loads' net.
    rewrite (main_checked _ _ json_loads' _ _ _ _ (Hnet net) Hc), Hd. reflexivity.
Qed.

Lemma dry_run_stays_offline_witness :
  exists w',
    main Demo.safe_version Demo.parse_args Demo.json_loads ["pkg"; "--dry"]
      (Demo.world "0.9.0" (Ok "0.9.0")) = (Ok tt, w') /\
    requests w' = [] /\
    forall (json_loads' : string -> Outcome json) (net : string -> Outcome string),
      main Demo.safe_version Demo.parse_args json_loads' ["pkg"; "--dry"]
        (with_network net (Demo.world "0.9.0" (Ok "0.9.0")))
      = (Ok tt, with_network net w').
Proof.
  apply (dry_run_stays_offline Demo.safe_version Demo.parse_args Demo.json_loads
           ["pkg"; "--dry"] (Demo.world "0.9.0" (Ok "0.9.0"))
           (snd (_parse_args Demo.parse_args ["pkg"; "--dry"]
                   (Demo.world "0.9.0" (Ok "0.9.0"))))
           {| Namespace.module := "pkg"; Namespace.warehouse := "https://pypi.org/pypi";
              Namespace.alpha := false; Namespace.beta := false; Namespace.rc := false;
              Namespace.dev := false; Namespace.release := false; Namespace.dry := true |}
           {| Parameters.warehouse := "https://pypi.org/pypi";
              Parameters.package := "pkg"; Parameters.version := "0.9.0";
              Parameters.expected_type := None; Parameters.dry_run := true |});
    reflexivity.
Defined.

(** ** The format check and the normal form of a version *)

Example normal_form_release : SafeVersion.safe_version "1.0.0" = "1.0.0".
Proof. reflexivity. Qed.

Example normal_form_upper_case : SafeVersion.safe_version "1.0.0A1" = "1.0.0a1".
Proof. reflexivity. Qed.

Example normal_form_alpha_dev :
  SafeVersion.safe_version "1.0.0a1.dev1" = "1.0.0a1.dev1".
Proof. reflexivity. Qed.

Example normal_form_spellings :
  map SafeVersion.safe_version ["v1.0-beta.2"; "01.0"; "1.0-1"; "1.0+Local_7"; "1..0"]
  = ["1.0b2"; "1.0"; "1.0.post1"; "1.0+local.7"; "1..0"].
Proof. reflexivity. Qed.

(** The scenarios of the specification with this rule: 1.0.0 passes, and
    1.0.0A1 is refused for its format. *)
Example scenario_fresh_normal :
  fst (main SafeVersion.safe_version Demo.parse_args Demo.json_loads ["pkg"]
         (Demo.world "1.0.0" (Ok "0.9.0")))
  = Ok tt.
Proof. reflexivity. Qed.

Example scenario_upper_case :
  fst (main SafeVersion.safe_version Demo.parse_args Demo.json_loads ["pkg"]
         (Demo.world "1.0.0A1" (Ok "0.9.0")))
  = Raise (InvalidVersionFormat "pkg" "1.0.0A1").
Proof. reflexivity. Qed.



(** * Further properties of the program *)

(** ** The flag table, completed *)

(** X1: [_parse_version_type] raises exactly on the conflicting flag
    combinations, and what it raises is always InvalidRequirements. *)
Theorem flag_table_refusals (ns : Namespace.t) :
  ((exists msg, _parse_version_type ns = Raise (InvalidRequirements msg))
   <-> conflicting ns = true) /\
  (forall e, _parse_version_type ns = Raise e -> exists msg, e = InvalidRequirements msg) /\
  ((exists o, _parse_version_type ns = Ok o) <-> conflicting ns = false).
Proof.
  unfold conflicting. flag_cases ns; repeat split;
    try (intros [x H]; discriminate H); try discriminate; eauto;
    try (intros e H; inversion H; eauto).
Qed.

(** X2: when [_parse_version_type] returns, the expected type is absent if
    no flag at all was given, and otherwise it is the values of the given
    flags or-ed together ([--release] adding nothing). *)
Theorem expected_type_is_flags_value (ns : Namespace.t) (o : option VersionType.t) :
  _parse_version_type ns = Ok o ->
  o = if Namespace.release ns || Namespace.alpha ns || Namespace.beta ns
         || Namespace.rc ns || Namespace.dev ns
      then Some (flags_value ns) else None.
Proof.
  unfold flags_value, flag_value. flag_cases ns; intros H; inversion H; reflexivity.
Qed.

Lemma expected_type_is_flags_value_witness :
  Some 12%Z = Some (flags_value (flags false false false true true)).
Proof.
  apply (expected_type_is_flags_value (flags false false false true true) (Some 12%Z)).
  reflexivity.
Defined.

(** ** The type check against the flags *)

Ltac marker_cases v :=
  rewrite <- ?StrFacts.contains_spec;
  destruct (Str.contains "a" v), (Str.contains "b" v),
           (Str.contains "rc" v), (Str.contains "dev" v).

(** X3: for an expected type that comes from the command line, the type
    check passes exactly when the markers that occur in the version are the
    flags that were given: "a" for [--alpha], "b" for [--beta], "rc" for
    [--rc], "dev" for [--dev]; otherwise it raises VersionTypeMismatch with
    the version, its actual type and the expected one. *)
Theorem type_check_wants_the_given_markers (ns : Namespace.t) (vt : VersionType.t)
    (v : string) (w : World) :
  _parse_version_type ns = Ok (Some vt) ->
  (check_version_type vt v w = (Ok tt, w) <->
   (Str.occurs "a" v <-> Namespace.alpha ns = true) /\
   (Str.occurs "b" v <-> Namespace.beta ns = true) /\
   (Str.occurs "rc" v <-> Namespace.rc ns = true) /\
   (Str.occurs "dev" v <-> Namespace.dev ns = true)) /\
  (check_version_type vt v w = (Ok tt, w) \/
   check_version_type vt v w = (Raise (VersionTypeMismatch v (parse v) vt), w)).
Proof.
  intros H. rewrite check_version_type_run. unfold parse.
  revert H. flag_cases ns; intros H; inversion H; subst vt; clear H;
    marker_cases v; vm_compute; intuition congruence.
Qed.

Lemma type_check_wants_the_given_markers_witness :
  check_version_type 9 "1.0.0a1.dev1" (Demo.world "1.0.0a1.dev1" (Ok ""))
  = (Ok tt, Demo.world "1.0.0a1.dev1" (Ok "")).
Proof.
  apply (type_check_wants_the_given_markers (flags false true false false true) 9
           "1.0.0a1.dev1" (Demo.world "1.0.0a1.dev1" (Ok "")) eq_refl).
  rewrite <- !StrFacts.contains_spec. vm_compute. intuition congruence.
Defined.

(** X4: a version in which two of the markers "a", "b", "rc" occur, such as
    any version spelled with "beta", fails the type check against every
    expected type the command line can ask for. *)
Theorem mixed_markers_fail_every_type (ns : Namespace.t) (vt : VersionType.t)
    (v : string) (w : World) :
  _parse_version_type ns = Ok (Some vt) ->
  (2 <= count_true [Str.contains "a" v; Str.contains "b" v; Str.contains "rc" v])%nat ->
  check_version_type vt v w = (Raise (VersionTypeMismatch v (parse v) vt), w).
Proof.
  intros H. rewrite check_version_type_run. unfold parse.
  revert H. flag_cases ns; intros H; inversion H; subst vt; clear H;
    destruct (Str.contains "a" v), (Str.contains "b" v),
             (Str.contains "rc" v), (Str.contains "dev" v);
    vm_compute; intros K; try reflexivity; exfalso; lia.
Qed.

Lemma mixed_markers_fail_every_type_witness :
  check_version_type BETA "1.0.0beta1" (Demo.world "1.0.0beta1" (Ok ""))
  = (Raise (VersionTypeMismatch "1.0.0beta1" 3 BETA), Demo.world "1.0.0beta1" (Ok "")).
Proof.
  apply (mixed_markers_fail_every_type (flags false false true false false) BETA
           "1.0.0beta1" (Demo.world "1.0.0beta1" (Ok "")) eq_refl).
  vm_compute. lia.
Defined.

(** ** The classifier on longer strings *)

Lemma append_assoc (a b c : string) :
  String.append (String.append a b) c = String.append a (String.append b c).
Proof.
  induction a as [|x a IH]; [reflexivity |].
  rewrite !StrFacts.app_cons. now rewrite IH.
Qed.

Lemma occurs_inside (sub pre v post : string) :
  Str.occurs sub v -> Str.occurs sub (pre +:+ v +:+ post).
Proof.
  intros [p [q H]]. exists (String.append pre p), (String.append q post).
  rewrite H. now rewrite !append_assoc.
Qed.

Lemma contains_inside (sub pre v post : string) :
  Str.contains sub v = true -> Str.contains sub (pre +:+ v +:+ post) = true.
Proof. rewrite !StrFacts.contains_spec. apply occurs_inside. Qed.

(** X5: text added before or after a version only adds flags: every flag
    of [parse v] is a flag of [parse (pre + v + post)]; and a type is always
    one of the sixteen combinations of the four flags. *)
Theorem parse_flags_accumulate (pre v post : string) :
  has (parse (pre +:+ v +:+ post)) (parse v) = true /\ 0 <= parse v <= 15.
Proof.
  pose proof (contains_inside "a" pre v post) as Ha.
  pose proof (contains_inside "b" pre v post) as Hb.
  pose proof (contains_inside "rc" pre v post) as Hrc.
  pose proof (contains_inside "dev" pre v post) as Hdev.
  unfold parse.
  destruct (Str.contains "a" v), (Str.contains "b" v),
           (Str.contains "rc" v), (Str.contains "dev" v);
    try rewrite (Ha eq_refl); try rewrite (Hb eq_refl);
    try rewrite (Hrc eq_refl); try rewrite (Hdev eq_refl);
    clear Ha Hb Hrc Hdev;
    destruct (Str.contains "a" (pre +:+ v +:+ post)),
             (Str.contains "b" (pre +:+ v +:+ post)),
             (Str.contains "rc" (pre +:+ v +:+ post)),
             (Str.contains "dev" (pre +:+ v +:+ post));
    vm_compute; split; try reflexivity; split; discriminate.
Qed.

(** ** Module resolution: which copy, and what a failed import leaves *)

Lemma resolve_module_found (name : string) (w : World) (m : pymodule) :
  importable w name = Ok m -> fst (_resolve_module name w) = Ok m.
Proof.
  intros H. unfold _resolve_module. unfold_m.
  destruct (sys_modules w !! name) as [o |] eqn:Hold; simpl.
  - rewrite lookup_delete_eq, H. destruct (truthy o); reflexivity.
  - rewrite Hold, H. reflexivity.
Qed.

Lemma resolve_module_failed (name : string) (w : World) (e : exn) :
  importable w name = Raise e -> fst (_resolve_module name w) = Raise e.
Proof.
  intros H. unfold _resolve_module. unfold_m.
  destruct (sys_modules w !! name) as [o |] eqn:Hold; simpl.
  - now rewrite lookup_delete_eq, H.
  - now rewrite Hold, H.
Qed.

(** X6: when the import raises, [_resolve_module] raises the same exception
    and the entry it had taken out of the module cache is not put back: the
    name is left without an entry, also when it had a module cached. *)
Theorem failed_import_drops_cached (name : string) (w : World) (e : exn) :
  importable w name = Raise e ->
  exists w',
    _resolve_module name w = (Raise e, w') /\
    sys_modules w' !! name = None.
Proof.
  intros H. unfold _resolve_module. unfold_m.
  destruct (sys_modules w !! name) as [o |] eqn:Hold; simpl.
  - rewrite lookup_delete_eq, H. eexists. split; [reflexivity |].
    simpl. apply lookup_delete_eq.
  - rewrite Hold, H. eexists. split; [reflexivity | exact Hold].
Qed.

Lemma failed_import_drops_cached_witness :
  exists w',
    _resolve_module "gone"
      (with_modules {[ "gone" := PyModule installed ]} (Demo.world "1.0.0" (Ok "")))
    = (Raise (ModuleNotFoundError "gone"), w') /\
    sys_modules w' !! "gone" = None.
Proof.
  exact (failed_import_drops_cached "gone"
           (with_modules {[ "gone" := PyModule installed ]} (Demo.world "1.0.0" (Ok "")))
           (ModuleNotFoundError "gone") eq_refl).
Defined.

(** ** The index lookup: requests and answers that are not as expected *)


(** X8: an answer that is not the expected document is not reported as
    [PypiError]: the decoder's exception leaves [check_unique] as it is, a
    document without [releases] gives [KeyError], and [releases] holding
    something else than an object gives [AttributeError]. *)
Theorem unexpected_answer_propagates (json_loads : string -> Outcome json)
    (name version warehouse : string) (w : World) (body : string) :
  network w (warehouse +:+ "/" +:+ name +:+ "/json") = Ok body ->
  (forall e, json_loads body = Raise e ->
             fst (check_unique json_loads name version warehouse w) = Raise e) /\
  (forall d, json_loads body = Ok (JObject d) -> d !! "releases" = None ->
             fst (check_unique json_loads name version warehouse w)
             = Raise (KeyError "releases")) /\
  (forall d r, json_loads body = Ok (JObject d) -> d !! "releases" = Some r ->
               (forall m, r <> JObject m) ->
               fst (check_unique json_loads name version warehouse w)
               = Raise (AttributeError "keys")).
Proof.
  intros Hn. unfold check_unique. unfold_m. simpl. rewrite Hn.
  split; [| split].
  - intros e He. now rewrite He.
  - intros d Hd Hr. rewrite Hd. simpl. now rewrite Hr.
  - intros d r Hd Hr Hobj. rewrite Hd. simpl. rewrite Hr.
    destruct r; try reflexivity. now elim (Hobj d0).
Qed.

Lemma unexpected_answer_propagates_witness :
  fst (check_unique (fun _ => Ok (JObject ∅)) "pkg" "1.0.0" "https://pypi.org/pypi"
         (Demo.world "1.0.0" (Ok "{}")))
  = Raise (KeyError "releases").
Proof.
  apply (proj1 (proj2 (unexpected_answer_propagates (fun _ => Ok (JObject ∅)) "pkg"
                         "1.0.0" "https://pypi.org/pypi"
                         (Demo.world "1.0.0" (Ok "{}")) "{}" eq_refl)) ∅);
    reflexivity.
Defined.

(** ** Resolving the command line *)

Section Resolve.

Variable parse_args : list string -> Outcome Namespace.t.

Lemma _parse_args_resolved (args : list string) (w : World) (ns : Namespace.t)
    (m : pymodule) :
  parse_args args = Ok ns ->
  importable w (Namespace.module ns) = Ok m ->
  fst (_parse_args parse_args args w)
  = match _parse_version_type ns with
    | Raise e => Raise e
    | Ok version_type =>
        match __version__ m with
        | None => Raise (AttributeError "__version__")
        | Some v =>
            Ok {| Parameters.warehouse := Namespace.warehouse ns;
                  Parameters.package := Namespace.module ns;
                  Parameters.version := v;
                  Parameters.expected_type := version_type;
                  Parameters.dry_run := Namespace.dry ns |}
        end
    end.
Proof.
  intros Hns Hm. unfold _parse_args. unfold bind at 1. unfold lift at 1.
  rewrite Hns. unfold bind at 1.
  pose proof (resolve_module_found (Namespace.module ns) w m Hm) as Hres.
  destruct (_resolve_module (Namespace.module ns) w) as [r w1]. simpl in Hres.
  subst r. unfold_m. unfold getattr_version.
  destruct (_parse_version_type ns); [| reflexivity].
  destruct (__version__ m); reflexivity.
Qed.

End Resolve.

(** X9: the parameters of a run are read off the module the import system
    finds now: when the command line parses, its flags do not conflict and
    the module found has a [__version__], [_parse_args] returns that
    version, the module name as package, the warehouse and the dry flag of
    the command line and the expected type of the flags, whatever the module
    cache held for the name. *)
Theorem parameters_come_from_found_module
    (parse_args : list string -> Outcome Namespace.t) (args : list string) (w : World)
    (ns : Namespace.t) (m : pymodule) (v : string) (o : option VersionType.t) :
  parse_args args = Ok ns ->
  importable w (Namespace.module ns) = Ok m ->
  __version__ m = Some v ->
  _parse_version_type ns = Ok o ->
  fst (_parse_args parse_args args w)
  = Ok {| Parameters.warehouse := Namespace.warehouse ns;
          Parameters.package := Namespace.module ns;
          Parameters.version := v;
          Parameters.expected_type := o;
          Parameters.dry_run := Namespace.dry ns |}.
Proof.
  intros Hns Hm Hv Ho.
  rewrite (_parse_args_resolved parse_args args w ns m Hns Hm). now rewrite Ho, Hv.
Qed.

Lemma parameters_come_from_found_module_witness :
  fst (_parse_args Demo.parse_args ["pkg"; "--dev"; "--dry"] world_installed)
  = Ok {| Parameters.warehouse := "https://pypi.org/pypi";
          Parameters.package := "pkg";
          Parameters.version := "1.0.0";
          Parameters.expected_type := Some DEV;
          Parameters.dry_run := true |}.
Proof.
  apply (parameters_come_from_found_module Demo.parse_args ["pkg"; "--dev"; "--dry"]
           world_installed
           {| Namespace.module := "pkg"; Namespace.warehouse := "https://pypi.org/pypi";
              Namespace.alpha := false; Namespace.beta := false; Namespace.rc := false;
              Namespace.dev := true; Namespace.release := false; Namespace.dry := true |}
           {| __file__ := "./pkg.py"; __version__ := Some "1.0.0" |});
    reflexivity.
Defined.

(** X10: which error [_parse_args] reports when several apply.  A usage
    error of the parser comes first and leaves the world untouched; then a
    failing import, also when the flags conflict; then conflicting flags,
    also when the module has no [__version__]; a missing [__version__] is
    an [AttributeError] and comes last. *)
Theorem resolver_error_order
    (parse_args : list string -> Outcome Namespace.t) (args : list string) (w : World) :
  (forall e, parse_args args = Raise e ->
             _parse_args parse_args args w = (Raise e, w)) /\
  (forall ns e, parse_args args = Ok ns ->
                importable w (Namespace.module ns) = Raise e ->
                fst (_parse_args parse_args args w) = Raise e) /\
  (forall ns m e, parse_args args = Ok ns ->
                  importable w (Namespace.module ns) = Ok m ->
                  _parse_version_type ns = Raise e ->
                  fst (_parse_args parse_args args w) = Raise e) /\
  (forall ns m o, parse_args args = Ok ns ->
                  importable w (Namespace.module ns) = Ok m ->
                  _parse_version_type ns = Ok o ->
                  __version__ m = None ->
                  fst (_parse_args parse_args args w)
                  = Raise (AttributeError "__version__")).
Proof.
  repeat split.
  - intros e He. unfold _parse_args. unfold_m. now rewrite He.
  - intros ns e Hns Hm. unfold _parse_args. unfold bind at 1. unfold lift at 1.
    rewrite Hns. unfold bind at 1.
    pose proof (resolve_module_failed (Namespace.module ns) w e Hm) as Hres.
    destruct (_resolve_module (Namespace.module ns) w) as [r w1]. simpl in Hres.
    now subst r.
  - intros ns m e Hns Hm He.
    rewrite (_parse_args_resolved parse_args args w ns m Hns Hm). now rewrite He.
  - intros ns m o Hns Hm Ho Hv.
    rewrite (_parse_args_resolved parse_args args w ns m Hns Hm). now rewrite Ho, Hv.
Qed.

Lemma resolver_error_order_witness :
  fst (_parse_args Demo.parse_args ["pkg"; "--alpha"; "--rc"]
         (with_modules ∅
            {| sys_modules := ∅;
               importable := fun _ => Ok {| __file__ := "./pkg.py"; __version__ := None |};
               network := fun _ => Ok ""; requests := []; stdout := [] |}))
  = Raise (InvalidRequirements "--alpha, --beta and --rc cannot be combined").
Proof.
  apply (proj1 (proj2 (proj2 (resolver_error_order Demo.parse_args
                                ["pkg"; "--alpha"; "--rc"] _)))
           {| Namespace.module := "pkg"; Namespace.warehouse := "https://pypi.org/pypi";
              Namespace.alpha := true; Namespace.beta := false; Namespace.rc := true;
              Namespace.dev := false; Namespace.release := false; Namespace.dry := false |}
           {| __file__ := "./pkg.py"; __version__ := None |});
    reflexivity.
Defined.

(** ** Runs that fail *)

Section Failures.

Variable safe_version : string -> string.
Variable parse_args : list string -> Outcome Namespace.t.
Variable json_loads : string -> Outcome json.

Lemma main_parse_failed (args : list string) (w w1 : World) (e : exn) :
  _parse_args parse_args args w = (Raise e, w1) ->
  main safe_version parse_args json_loads args w = (Raise e, w1).
Proof. intros H. unfold main. unfold bind at 1. now rewrite H. Qed.

Lemma main_format_failed (args : list string) (w w1 : World) (p : Parameters.t) :
  _parse_args parse_args args w = (Ok p, w1) ->
  String.eqb (safe_version (Parameters.version p)) (Parameters.version p) = false ->
  main safe_version parse_args json_loads args w
  = (Raise (InvalidVersionFormat (Parameters.package p) (Parameters.version p)), w1).
Proof.
  intros Hp Hf. unfold main. unfold bind at 1. rewrite Hp.
  unfold bind at 1. now rewrite check_version_format_run, Hf.
Qed.

Lemma main_type_failed (args : list string) (w w1 : World) (p : Parameters.t)
    (expected : VersionType.t) :
  _parse_args parse_args args w = (Ok p, w1) ->
  String.eqb (safe_version (Parameters.version p)) (Parameters.version p) = true ->
  Parameters.expected_type p = Some expected ->
  Z.eqb (parse (Parameters.version p)) expected = false ->
  main safe_version parse_args json_loads args w
  = (Raise (VersionTypeMismatch (Parameters.version p)
              (parse (Parameters.version p)) expected), w1).
Proof.
  intros Hp Hf He Ht. unfold main. unfold bind at 1. rewrite Hp.
  unfold bind at 1. rewrite check_version_format_run, Hf.
  unfold bind at 1. now rewrite He, check_version_type_run, Ht.
Qed.

(** Every run is one of five: the command line is not resolved, a check
    fails, the run is dry, the lookup fails, the lookup passes. *)
Lemma main_cases (args : list string) (w w' : World) (r : Outcome unit) :
  main safe_version parse_args json_loads args w = (r, w') ->
  (exists e, r = Raise e /\ _parse_args parse_args args w = (Raise e, w')) \/
  (exists p e, r = Raise e /\ _parse_args parse_args args w = (Ok p, w')
               /\ checks_pass safe_version p = false) \/
  (exists p w1, _parse_args parse_args args w = (Ok p, w1)
                /\ checks_pass safe_version p = true /\
     ((Parameters.dry_run p = true /\ r = Ok tt /\
       w' = printed (ok_line (Parameters.package p) (Parameters.version p)) w1) \/
      (Parameters.dry_run p = false /\
       exists r1 w2,
         check_unique json_loads (Parameters.package p) (Parameters.version p)
           (Parameters.warehouse p) w1 = (r1, w2) /\
         match r1 with
         | Raise e => r = Raise e /\ w' = w2
         | Ok _ => r = Ok tt /\
                   w' = printed (ok_line (Parameters.package p) (Parameters.version p)) w2
         end))).
Proof.
  intros H.
  destruct (_parse_args parse_args args w) as [[p | e] w1] eqn:Hp.
  - destruct (checks_pass safe_version p) eqn:Hc.
    + right. right. exists p, w1. split; [reflexivity |]. split; [exact Hc |].
      rewrite (main_checked _ _ json_loads _ _ _ _ Hp Hc) in H.
      unfold bind in H. destruct (Parameters.dry_run p); simpl in H.
      * left. inversion H. auto.
      * right. split; [reflexivity |].
        destruct (check_unique _ _ _ _ w1) as [[[] | e] w2]; eexists _, w2;
          (split; [reflexivity |]); inversion H; auto.
    + right. left. unfold checks_pass in Hc.
      destruct (String.eqb _ _) eqn:Hf.
      * destruct (Parameters.expected_type p) as [expected |] eqn:He;
          [| discriminate Hc].
        simpl in Hc. rewrite (main_type_failed _ _ _ _ _ Hp Hf He Hc) in H.
        inversion H. subst. exists p. eexists. split; [reflexivity |].
        split; [reflexivity |]. unfold checks_pass. now rewrite Hf, He.
      * rewrite (main_format_failed _ _ _ _ Hp Hf) in H.
        inversion H. subst. exists p. eexists. split; [reflexivity |].
        split; [reflexivity |]. unfold checks_pass. now rewrite Hf.
  - left. rewrite (main_parse_failed _ _ _ _ Hp) in H. inversion H. subst. eauto.
Qed.

End Failures.








(** X14: a run sends no request or exactly one.  It sends one only when
    the command line was resolved without [--dry] and the checks passed, and
    then to [<warehouse>/<package>/json] of the resolved parameters. *)
Theorem run_asks_at_most_once (safe_version : string -> string)
    (parse_args : list string -> Outcome Namespace.t)
    (json_loads : string -> Outcome json) (args : list string) (w : World) :
  requests (snd (main safe_version parse_args json_loads args w)) = requests w \/
  exists p w1,
    _parse_args parse_args args w = (Ok p, w1) /\
    Parameters.dry_run p = false /\ checks_pass safe_version p = true /\
    requests (snd (main safe_version parse_args json_loads args w))
    = (requests w
       ++ [Parameters.warehouse p +:+ "/" +:+ Parameters.package p +:+ "/json"])%list.
Proof.
  destruct (main safe_version parse_args json_loads args w) as [r w'] eqn:H. simpl.
  apply main_cases in H.
  destruct H as [(e' & _ & Hp) | [(p & e' & _ & Hp & _) | (p & w1 & Hp & Hc & H)]].
  - left. now apply _parse_args_offline in Hp as (Hr & _).
  - left. now apply _parse_args_offline in Hp as (Hr & _).
  - pose proof (_parse_args_offline _ _ _ _ _ Hp) as (Hr & _).
    destruct H as [(_ & _ & Hw) | (Hd & r1 & w2 & Hu & H)].
    + left. subst w'. simpl. exact Hr.
    + right. exists p, w1. repeat split; auto.
      apply check_unique_frame in Hu. subst w2.
      destruct r1 as [[] | e1]; destruct H as [_ Hw]; subst w'; simpl; now rewrite Hr.
Qed.


